(** * The pipelines user guide of EvalML: its example code, embedded and verified

    The guide [docs/source/user_guide/pipelines.ipynb] declares a handful of
    pipeline classes, instantiates them, and defines one custom component,
    [MyDropNullColumns], with a constructor, [fit] and [transform].

    The first half of this file embeds the component: Python floats, table
    cells, data frames, an object store with exceptions, then the three
    methods.  The second half embeds the class declarations and the pipeline
    instantiations of the notebook as data.

    Numbers.  A Python float is a rational, an infinity or NaN, with the IEEE
    comparisons (every comparison with NaN is false).  In [MyDropNullColumns]
    the mean of a boolean column is the exact ratio of its true entries to
    its length and the typing helper always returns; in [Binary64] the mean
    is the binary64 quotient, a parameter of which only what IEEE 754
    guarantees is assumed, and the typing helper can refuse a frame. *)

From Stdlib Require Import QArith Qcanon SpecFloat.
From stdpp Require Import gmap strings list fin_maps numbers relations.

Local Open Scope Qc_scope.

(** ** Python floats *)

Inductive pyfloat : Type :=
  | NaN
  | NegInf
  | Fin (q : Qc)
  | PosInf.

(** [a < b] on floats. *)
Definition flt (a b : pyfloat) : bool :=
  match a, b with
  | NaN, _ | _, NaN => false
  | _, NegInf => false
  | NegInf, _ => true
  | PosInf, _ => false
  | Fin _, PosInf => true
  | Fin x, Fin y => bool_decide (x < y)
  end.

(** [a <= b] on floats. *)
Definition fle (a b : pyfloat) : bool :=
  match a, b with
  | NaN, _ | _, NaN => false
  | NegInf, _ => true
  | _, PosInf => true
  | _, NegInf => false
  | PosInf, _ => false
  | Fin x, Fin y => bool_decide (x ≤ y)
  end.

(** [a == b] on floats. *)
Definition feq (a b : pyfloat) : bool :=
  match a, b with
  | NegInf, NegInf | PosInf, PosInf => true
  | Fin x, Fin y => bool_decide (x = y)
  | _, _ => false
  end.

Definition fgt (a b : pyfloat) : bool := flt b a.
Definition fge (a b : pyfloat) : bool := fle b a.

(** ** Python values that occur as parameters and in the notebook's literals *)

Local Unset Elimination Schemes.
Inductive pyval : Type :=
  | PNone
  | PInt (z : Z)
  | PFloat (f : pyfloat)
  | PStr (s : string)
  | PList (l : list pyval)
  | PDict (d : list (string * pyval))
  | PClass (name : string)
  | PCall (f : string) (args : list pyval).
Local Set Elimination Schemes.

(** ** Exceptions and the object store *)

Inductive exn : Type :=
  | ValueError (msg : string)
  | KeyError (key : string)
  | AttributeError (attr : string)
  | TypeError (msg : string)
  | IndexError (msg : string).

Inductive outcome (A : Type) : Type :=
  | Return (a : A)
  | Raise (e : exn).
Arguments Return {A} a.
Arguments Raise {A} e.

Abbreviation label := string.

(** An instance attribute is absent, bound to [None], or bound to a value. *)
Inductive slot (A : Type) : Type :=
  | Absent
  | IsNone
  | Holds (a : A).
Arguments Absent {A}.
Arguments IsNone {A}.
Arguments Holds {A} a.

(** The attributes of a transformer instance.  A freshly allocated object has
    none of them. *)
Record instance : Type := Instance {
  _parameters : slot (gmap string pyval);
  _component_obj : slot pyval;
  random_seed : slot Z;
  _cols_to_drop : slot (list label)
}.

Definition blank : instance :=
  {| _parameters := Absent; _component_obj := Absent;
     random_seed := Absent; _cols_to_drop := Absent |}.

Definition set_cols_to_drop (c : slot (list label)) (o : instance) : instance :=
  {| _parameters := _parameters o; _component_obj := _component_obj o;
     random_seed := random_seed o; _cols_to_drop := c |}.

Definition loc := positive.

Abbreviation heap := (gmap loc instance).

(** Computations on the store; what was written before a raise stays
    written. *)
Definition M (A : Type) : Type := heap → outcome A * heap.

Definition raise {A} (e : exn) : M A := λ h, (Raise e, h).

#[global] Instance M_ret : MRet M := λ A a h, (Return a, h).
#[global] Instance M_bind : MBind M := λ A B k m h,
  match m h with
  | (Return a, h') => k a h'
  | (Raise e, h') => (Raise e, h')
  end.

(** Read the object behind a reference. *)
Definition deref (self : loc) : M instance :=
  λ h, match h !! self with
       | Some o => (Return o, h)
       | None => (Raise (AttributeError "self"), h)
       end.

(** Update the object behind a reference. *)
Definition modify (self : loc) (f : instance → instance) : M unit :=
  λ h, match h !! self with
       | Some o => (Return tt, <[self := f o]> h)
       | None => (Raise (AttributeError "self"), h)
       end.

(** [object.__new__]: a fresh object without attributes. *)
Definition alloc : M loc :=
  λ h, let l := fresh (dom h) in (Return l, <[l := blank]> h).

(** [d.update(e)]: the entries of [e] win. *)
Definition dict_update (d e : gmap string pyval) : gmap string pyval := e ∪ d.

(** Modelled from the spec: the base-class initialiser [Transformer.__init__]
    is not part of the notebook.  The notebook calls it with the keywords
    [parameters], [component_obj] and [random_seed] and later reads
    [self.parameters]; it is taken to store its three arguments on the
    instance. *)
Definition Transformer__init__ (self : loc) (parameters : gmap string pyval)
    (component_obj : slot pyval) (seed : Z) : M unit :=
  modify self (λ o,
    {| _parameters := Holds parameters; _component_obj := component_obj;
       random_seed := Holds seed; _cols_to_drop := _cols_to_drop o |}).

(** The property [self.parameters] of the same base class: the dictionary
    the initialiser stored. *)
Definition parameters (self : loc) : M (gmap string pyval) :=
  o ← deref self ;
  match _parameters o with
  | Holds p => mret p
  | _ => raise (AttributeError "parameters")
  end.

(** [d[k]] on a dictionary. *)
Definition getitem (d : gmap string pyval) (k : string) : M pyval :=
  match d !! k with
  | Some v => mret v
  | None => raise (KeyError k)
  end.

(** ** Data frames *)

(** A cell; [NA] stands for every missing-value marker. *)
Inductive cell : Type :=
  | NA
  | IntCell (z : Z)
  | FloatCell (q : Qc)
  | StrCell (s : string)
  | BoolCell (b : bool).

Definition isnull_cell (c : cell) : bool :=
  match c with NA => true | _ => false end.

(** A frame is its columns in order, each a label and the cells of its rows. *)
Abbreviation column := (label * list cell)%type.
Abbreviation DataFrame := (list column).

(** A series indexed by column labels. *)
Abbreviation Series A := (list (label * A)).

Definition columns (X : DataFrame) : list label := X.*1.

(** [X.isnull()] *)
Definition isnull (X : DataFrame) : list (label * list bool) :=
  (λ c : column, (c.1, isnull_cell <$> c.2)) <$> X.

Definition count_true (bs : list bool) : nat := length (filter (λ b, b = true) bs).

(** The mean of a boolean column: NaN when it has no rows. *)
Definition mean_bool (bs : list bool) : pyfloat :=
  match bs with
  | [] => NaN
  | _ => Fin (Qc_of_Z (Z.of_nat (count_true bs)) / Qc_of_Z (Z.of_nat (length bs)))
  end.

(** [B.mean()] on a boolean frame, column by column. *)
Definition mean (B : list (label * list bool)) : Series pyfloat :=
  (λ c, (c.1, mean_bool c.2)) <$> B.

(** Boolean indexing [s[mask]] with the mask computed entry by entry. *)
Definition select {A} (p : A → bool) (s : Series A) : Series A :=
  filter (λ e, p e.2 = true) s.

(** [list(s.index)] *)
Definition index {A} (s : Series A) : list label := s.*1.

(** A typed table: a frame together with a logical type for each column. *)
Record DataTable : Type := {
  to_dataframe : DataFrame;
  logical_types : list (label * string)
}.

Definition keep_column {A} (cols : list label) (c : label * A) : Prop := c.1 ∉ cols.

#[global] Instance keep_column_dec {A} cols (c : label * A) :
  Decision (keep_column cols c).
Proof. unfold keep_column. apply _. Defined.

(** [T.drop(columns)]: rejects a label that is not a column of [T], and
    otherwise keeps the columns whose label is not listed. *)
Definition drop (T : DataTable) (cols : list label) : outcome DataTable :=
  let not_present := filter (λ c, c ∉ columns (to_dataframe T)) cols in
  match not_present with
  | [] => Return {| to_dataframe := filter (keep_column cols) (to_dataframe T);
                    logical_types := filter (keep_column cols) (logical_types T) |}
  | _ => Raise (ValueError "not found in DataTable")
  end.

Definition lift {A} (r : outcome A) : M A := λ h, (r, h).

(** ** The custom component [MyDropNullColumns] *)

Module MyDropNullColumns.

Definition name : string := "My Drop Null Columns Transformer".

Section Methods.

(** The two helpers imported from [evalml.utils] are not part of the
    notebook.  They are parameters, with the contract the component relies
    on: typing a frame wraps the same data, and converting the types of a
    frame keeps its missing values where they are. *)
Variable infer_feature_types : DataFrame → DataTable.
Variable _convert_woodwork_types_wrapper : DataFrame → DataFrame.

Definition typing_wraps : Prop :=
  ∀ X, to_dataframe (infer_feature_types X) = X.
Definition conversion_keeps_nulls : Prop :=
  ∀ X, isnull (_convert_woodwork_types_wrapper X) = isnull X.

Definition threshold_message : string :=
  "pct_null_threshold must be a float between 0 and 1, inclusive.".

Definition __init__ (self : loc) (pct_null_threshold : pyfloat)
    (seed : Z) (kwargs : gmap string pyval) : M unit :=
  if flt pct_null_threshold (Fin 0) || fgt pct_null_threshold (Fin 1) then
    raise (ValueError threshold_message)
  else
    let parameters : gmap string pyval :=
      {[ "pct_null_threshold" := PFloat pct_null_threshold ]} in
    let parameters := dict_update parameters kwargs in
    modify self (set_cols_to_drop IsNone) ;;
    Transformer__init__ self parameters IsNone seed.

(** The call [MyDropNullColumns(...)]: allocate, initialise with the
    defaults [pct_null_threshold=1.0] and [random_seed=0] for the arguments
    left out, and hand back the reference. *)
Definition new (pct_null_threshold : option pyfloat) (seed : option Z)
    (kwargs : gmap string pyval) : M loc :=
  self ← alloc ;
  __init__ self (default (Fin 1) pct_null_threshold) (default 0%Z seed) kwargs ;;
  mret self.

Definition fit (self : loc) (X : DataFrame) : M loc :=
  params ← parameters self ;
  v ← getitem params "pct_null_threshold" ;
  match v with
  | PFloat pct_null_threshold =>
      let X := infer_feature_types X in
      let X := _convert_woodwork_types_wrapper (to_dataframe X) in
      let percent_null := mean (isnull X) in
      let null_cols :=
        if feq pct_null_threshold (Fin 0)
        then select (λ p, fgt p (Fin 0)) percent_null
        else select (λ p, fge p pct_null_threshold) percent_null in
      modify self (set_cols_to_drop (Holds (index null_cols))) ;;
      mret self
  | _ =>
      (* not reachable after [__init__], which stores a float *)
      raise (TypeError "pct_null_threshold is not a float")
  end.

Definition transform (self : loc) (X : DataFrame) : M DataTable :=
  let X := infer_feature_types X in
  o ← deref self ;
  match _cols_to_drop o with
  | Holds cols => lift (drop X cols)
  | IsNone => raise (ValueError "[None] not found in DataTable")
  | Absent => raise (AttributeError "_cols_to_drop")
  end.

(** A session: construct a transformer, fit it on [X], and read
    [_cols_to_drop] back. *)
Definition recorded (pct_null_threshold : option pyfloat) (X : DataFrame)
    : M (slot (list label)) :=
  self ← new pct_null_threshold None ∅ ;
  fit self X ;;
  o ← deref self ;
  mret (_cols_to_drop o).

End Methods.

(** What a successful constructor leaves behind the reference. *)
Definition initialised (t : pyfloat) (seed : Z) (kwargs : gmap string pyval)
    : instance :=
  {| _parameters :=
       Holds (dict_update {[ "pct_null_threshold" := PFloat t ]} kwargs);
     _component_obj := IsNone;
     random_seed := Holds seed;
     _cols_to_drop := IsNone |}.

End MyDropNullColumns.

(** ** The vocabulary of the statements *)

#[global] Instance cell_eq_dec : EqDecision cell.
Proof. solve_decision. Defined.

(** The number of missing values of a column. *)
Definition count_null (vs : list cell) : nat :=
  length (filter (λ v, v = NA) vs).

(** The fraction of missing values of a column; a column without rows has
    none. *)
Definition null_fraction (vs : list cell) : pyfloat :=
  if decide (vs = []) then NaN
  else Fin (Qc_of_Z (Z.of_nat (count_null vs)) / Qc_of_Z (Z.of_nat (length vs))).

(** A column is to be dropped at threshold [t]: its fraction of missing
    values is above 0 when [t] is 0.0, and at least [t] otherwise. *)
Definition should_drop (t : pyfloat) (c : column) : Prop :=
  if feq t (Fin 0) then flt (Fin 0) (null_fraction c.2) = true
  else fle t (null_fraction c.2) = true.

#[global] Instance should_drop_dec t c : Decision (should_drop t c).
Proof. unfold should_drop. destruct (feq t (Fin 0)); apply _. Defined.

(** Every value of the column is missing. *)
Definition all_null (c : column) : Prop := Forall (λ v, v = NA) c.2.

(** The column has at least one row and every value of it is missing. *)
Definition nonempty_all_null (c : column) : Prop := c.2 ≠ [] ∧ all_null c.

#[global] Instance nonempty_all_null_dec c : Decision (nonempty_all_null c).
Proof. unfold nonempty_all_null, all_null. apply _. Defined.

(** One pair of helpers that meets the contract: every column is typed
    ["Unknown"], and the conversion leaves the frame as it is. *)
Definition untyped (X : DataFrame) : DataTable :=
  {| to_dataframe := X; logical_types := (λ c : column, (c.1, "Unknown")) <$> X |}.
Definition unconverted (X : DataFrame) : DataFrame := X.

Definition sample_frame : DataFrame :=
  [("a", [NA; NA]); ("b", [NA; IntCell 1]); ("c", [IntCell 1; IntCell 2])].

(** ** The declarations of the notebook *)

(** A class statement: its name, its bases, and the class variables of its
    body in order. *)
Record class_def : Type := {
  cls_name : string;
  cls_bases : list string;
  cls_attrs : list (string * pyval)
}.

Inductive expr : Type :=
  | Lit (v : pyval)
  | Var (x : string).

(** The statements of the notebook that declare a class, bind the variable
    [parameters], or call a class of the notebook. *)
Inductive stmt : Type :=
  | ClassDef (c : class_def)
  | Assign (x : string) (v : pyval)
  | Call (cls : string) (args : list expr) (kwargs : list (string * expr)).

(** Lookup in a literal dictionary or in a class body. *)
Fixpoint assoc {A} (k : string) (l : list (string * A)) : option A :=
  match l with
  | [] => None
  | (k', v) :: l' => if decide (k = k') then Some v else assoc k l'
  end.

Definition CustomMulticlassClassificationPipeline : class_def :=
  {| cls_name := "CustomMulticlassClassificationPipeline";
     cls_bases := ["MulticlassClassificationPipeline"];
     cls_attrs :=
       [("component_graph",
         PList [PStr "Imputer"; PStr "Random Forest Classifier"])] |}.

Definition CustomNonlinearMulticlassClassificationPipeline : class_def :=
  {| cls_name := "CustomNonlinearMulticlassClassificationPipeline";
     cls_bases := ["MulticlassClassificationPipeline"];
     cls_attrs :=
       [("component_graph",
         PDict
           [("Imputer", PList [PStr "Imputer"]);
            ("Encoder", PList [PStr "One Hot Encoder"; PStr "Imputer"]);
            ("Random Forest Clf",
             PList [PStr "Random Forest Classifier"; PStr "Encoder"]);
            ("Elastic Net Clf",
             PList [PStr "Elastic Net Classifier"; PStr "Encoder"]);
            ("Final Estimator",
             PList [PStr "Logistic Regression Classifier";
                    PStr "Random Forest Clf"; PStr "Elastic Net Clf"])])] |}.

Definition NewTransformer : class_def :=
  {| cls_name := "NewTransformer";
     cls_bases := ["Transformer"];
     cls_attrs :=
       [("name", PStr "New Transformer");
        ("hyperparameter_ranges",
         PDict [("parameter_1", PList [PStr "a"; PStr "b"; PStr "c"])])] |}.

Definition CustomComponentMulticlassClassificationPipeline : class_def :=
  {| cls_name := "CustomComponentMulticlassClassificationPipeline";
     cls_bases := ["MulticlassClassificationPipeline"];
     cls_attrs :=
       [("component_graph",
         PList [PClass "NewTransformer"; PStr "Random Forest Classifier"])] |}.

(** The notebook binds the name [CustomPipeline] four times. *)
Definition CustomPipeline_named : class_def :=
  {| cls_name := "CustomPipeline";
     cls_bases := ["MulticlassClassificationPipeline"];
     cls_attrs :=
       [("component_graph",
         PList [PStr "Imputer"; PStr "One Hot Encoder";
                PStr "Logistic Regression Classifier"]);
        ("custom_name", PStr "A custom pipeline name")] |}.

Definition CustomPipeline_plain : class_def :=
  {| cls_name := "CustomPipeline";
     cls_bases := ["MulticlassClassificationPipeline"];
     cls_attrs :=
       [("component_graph",
         PList [PStr "Imputer"; PStr "One Hot Encoder"; PStr "Standard Scaler";
                PStr "Logistic Regression Classifier"])] |}.

Definition CustomPipeline_ranges : class_def :=
  {| cls_name := "CustomPipeline";
     cls_bases := ["MulticlassClassificationPipeline"];
     cls_attrs :=
       [("component_graph",
         PList [PStr "Imputer"; PStr "One Hot Encoder"; PStr "Standard Scaler";
                PStr "Logistic Regression Classifier"]);
        ("custom_hyperparameters",
         PDict
           [("Simple Imputer",
             PDict
               [("impute_strategy",
                 PCall "Categorical" [PList [PStr "most_frequent"]]);
                ("another_hyperparameter", PList [PStr "value"])])])] |}.

Definition MyDropNullColumns_class : class_def :=
  {| cls_name := "MyDropNullColumns";
     cls_bases := ["Transformer"];
     cls_attrs :=
       [("name", PStr MyDropNullColumns.name);
        ("hyperparameter_ranges", PDict [])] |}.

Definition CustomPipeline_generated : class_def :=
  {| cls_name := "CustomPipeline";
     cls_bases := ["MulticlassClassificationPipeline"];
     cls_attrs :=
       [("name", PStr "Custom Pipeline");
        ("component_graph",
         PList [PStr "Imputer"; PClass "MyDropNullColumns";
                PStr "DateTime Featurization Component";
                PStr "One Hot Encoder"; PStr "Random Forest Classifier"]);
        ("custom_hyperparameters",
         PDict
           [("Imputer",
             PDict [("numeric_impute_strategy",
                     PList [PStr "mean"; PStr "median"])])])] |}.

Definition notebook : list stmt :=
  [ ClassDef CustomMulticlassClassificationPipeline;
    ClassDef CustomNonlinearMulticlassClassificationPipeline;
    ClassDef NewTransformer;
    ClassDef CustomComponentMulticlassClassificationPipeline;
    Call "CustomMulticlassClassificationPipeline" [Lit (PDict [])] [];
    ClassDef CustomPipeline_named;
    ClassDef CustomPipeline_plain;
    ClassDef CustomPipeline_ranges;
    Call "CustomPipeline" [] [("parameters", Lit (PDict []))];
    Assign "parameters"
      (PDict
         [("Imputer",
           PDict [("categorical_impute_strategy", PStr "most_frequent");
                  ("numeric_impute_strategy", PStr "median")]);
          ("Logistic Regression Classifier",
           PDict [("penalty", PStr "l2");
                  ("C", PFloat (Fin 1))])]);
    Call "CustomPipeline" []
      [("parameters", Var "parameters"); ("random_seed", Lit (PInt 5))];
    Call "CustomNonlinearMulticlassClassificationPipeline" [Lit (PDict [])] [];
    ClassDef MyDropNullColumns_class;
    ClassDef CustomPipeline_generated;
    Call "CustomPipeline" []
      [("parameters",
        Lit (PDict
               [("Imputer",
                 PDict [("numeric_impute_strategy", PStr "median")])]))] ].

(** The class statements of the notebook, in order. *)
Definition class_defs (prog : list stmt) : list class_def :=
  omap (λ s, match s with ClassDef c => Some c | _ => None end) prog.

(** A call of a class, with the class the name is bound to at the call and
    the arguments evaluated. *)
Record instantiation : Type := {
  inst_class : class_def;
  inst_args : list pyval;
  inst_kwargs : list (string * pyval)
}.

Record env : Type := {
  classes : gmap string class_def;
  vars : gmap string pyval
}.

Definition eval (e : env) (x : expr) : pyval :=
  match x with
  | Lit v => v
  | Var y => default PNone (vars e !! y)
  end.

(** Run the statements in order and collect the calls of classes. *)
Fixpoint instantiations (e : env) (prog : list stmt) : list instantiation :=
  match prog with
  | [] => []
  | ClassDef c :: prog' =>
      instantiations
        {| classes := <[cls_name c := c]> (classes e); vars := vars e |} prog'
  | Assign x v :: prog' =>
      instantiations {| classes := classes e; vars := <[x := v]> (vars e) |} prog'
  | Call cls args kwargs :: prog' =>
      match classes e !! cls with
      | Some c =>
          {| inst_class := c;
             inst_args := eval e <$> args;
             inst_kwargs := (λ kv, (kv.1, eval e kv.2)) <$> kwargs |}
          :: instantiations e prog'
      | None => instantiations e prog'
      end
  end.

Definition empty_env : env := {| classes := ∅; vars := ∅ |}.

(** The [parameters] argument of a pipeline call: the keyword, or else the
    first positional argument. *)
Definition parameters_argument (i : instantiation) : option pyval :=
  match assoc "parameters" (inst_kwargs i) with
  | Some v => Some v
  | None => head (inst_args i)
  end.

(** The name under which a component of a component graph is known: the
    string itself, or the [name] of the referenced class. *)
Definition component_name (cs : list class_def) (v : pyval) : option string :=
  match v with
  | PStr s => Some s
  | PClass c =>
      cd ← list_find (λ cd, cls_name cd = c) cs ;
      match assoc "name" (cls_attrs cd.2) with
      | Some (PStr s) => Some s
      | _ => None
      end
  | _ => None
  end.

(** The component names of a pipeline class: the entries of a list graph, the
    keys of a dictionary graph. *)
Definition component_names (cs : list class_def) (c : class_def) : list string :=
  match assoc "component_graph" (cls_attrs c) with
  | Some (PList l) => omap (component_name cs) l
  | Some (PDict d) => d.*1
  | _ => []
  end.

(** A two-level dictionary: every value of the dictionary is a dictionary. *)
Definition two_level (v : pyval) : Prop :=
  ∃ d, v = PDict d ∧ Forall (λ kv, ∃ ps, kv.2 = PDict ps) d.

Definition dict_keys (v : pyval) : list string :=
  match v with PDict d => d.*1 | _ => [] end.

(** A reference to a component: its name, or its class. *)
Definition component_ref (v : pyval) : Prop :=
  (∃ s, v = PStr s) ∨ (∃ c, v = PClass c).

(** A list of components, or a dictionary of named components, each value a
    list that starts with a component. *)
Definition graph_shaped (g : pyval) : Prop :=
  (∃ l, g = PList l ∧ Forall component_ref l) ∨
  (∃ d, g = PDict d ∧
        Forall (λ kv, ∃ comp parents,
                  kv.2 = PList (comp :: parents) ∧ component_ref comp) d).

(** A component class derives from [Transformer]; the other classes of the
    notebook are its pipeline classes. *)
Definition pipeline_class (c : class_def) : Prop :=
  "Transformer" ∉ cls_bases c.

#[global] Instance pipeline_class_dec c : Decision (pipeline_class c).
Proof. unfold pipeline_class. apply _. Defined.

(** The nodes of a dictionary graph with the strings of their lists. *)
Definition node_list (v : pyval) : option (list string) :=
  match v with
  | PList l => mapM (λ x, match x with PStr s => Some s | _ => None end) l
  | _ => None
  end.

Definition dict_graph (g : pyval) : option (list (string * list string)) :=
  match g with
  | PDict d => mapM (λ kv, l ← node_list kv.2 ; Some (kv.1, l)) d
  | _ => None
  end.

(** [p] is a parent of [c]: the list of [c] names [p] after its first
    element. *)
Definition parent (g : list (string * list string)) (p c : string) : Prop :=
  ∃ v, (c, v) ∈ g ∧ p ∈ tail v.

(** [a] comes before [b] in [order]. *)
Definition before (order : list string) (a b : string) : Prop :=
  ∃ i j, order !! i = Some a ∧ order !! j = Some b ∧ (i < j)%nat.

(** The index of the first occurrence of [n] in [order]. *)
Definition position (order : list string) (n : string) : nat :=
  default (length order) (fst <$> list_find (λ x, x = n) order).

(** The dictionary graph of the nonlinear pipeline class. *)
Definition nonlinear_graph : list (string * list string) :=
  default [] (assoc "component_graph"
                (cls_attrs CustomNonlinearMulticlassClassificationPipeline)
              ≫= dict_graph).

(** ** Further vocabulary *)

(** The column has a missing value. *)
Definition has_null (c : column) : Prop := NA ∈ c.2.

#[global] Instance has_null_dec c : Decision (has_null c).
Proof. unfold has_null. apply _. Defined.

(** [e] is a sound entry of [X.isnull().mean()] for the column [c]: the same
    label, NaN for a column without rows, and a share of the unit interval
    otherwise. *)
Definition share_of (c : column) (e : label * pyfloat) : Prop :=
  e.1 = c.1 ∧
  ((c.2 = [] ∧ e.2 = NaN) ∨ (c.2 ≠ [] ∧ ∃ q, e.2 = Fin q ∧ 0 ≤ q ∧ q ≤ 1)).

(** ** The component over binary64 means and helpers that can refuse a frame *)

(** The methods once more, closer to the libraries in two respects.  The
    mean of a boolean column is the binary64 quotient [the_sum / count] that
    pandas computes, a parameter here; and [infer_feature_types] can raise
    (woodwork refuses a frame with duplicate labels) and, when it returns,
    keeps labels, rows and missing values but not necessarily the values,
    which it re-types.  The methods of [MyDropNullColumns] above are the
    instance with the exact quotient and a helper that always returns. *)
Module Binary64.

Section Methods.

Variable quotient : nat → nat → pyfloat.
Variable infer_feature_types : DataFrame → outcome DataTable.
Variable _convert_woodwork_types_wrapper : DataFrame → DataFrame.

(** What binary64 division gives for the quotients that matter below: 0/n is
    0, n/n is 1, and k/n is below 1 for k < n as long as n is at most 2^53
    (up to there the operands are exact, and the quotient is at most
    1 - 2^-53, which is a binary64 number). *)
Definition zero_share : Prop :=
  ∀ n, (0 < n)%nat → quotient 0 n = Fin 0.
Definition full_share : Prop :=
  ∀ n, (0 < n)%nat → quotient n n = Fin 1.
Definition partial_share : Prop :=
  ∀ k n, (k < n)%nat → (Z.of_nat n ≤ 2 ^ 53)%Z →
         flt (quotient k n) (Fin 1) = true.

(** What the component needs of the typing helper: a table it returns has
    the labels, the rows and the missing values of the frame. *)
Definition typing_keeps_nulls : Prop :=
  ∀ X T, infer_feature_types X = Return T → isnull (to_dataframe T) = isnull X.

(** The mean of a boolean column: NaN when it has no rows. *)
Definition mean_bool (bs : list bool) : pyfloat :=
  match bs with
  | [] => NaN
  | _ => quotient (count_true bs) (length bs)
  end.

(** [B.mean()] on a boolean frame, column by column. *)
Definition mean (B : list (label * list bool)) : Series pyfloat :=
  (λ c, (c.1, mean_bool c.2)) <$> B.

Definition fit (self : loc) (X : DataFrame) : M loc :=
  params ← parameters self ;
  v ← getitem params "pct_null_threshold" ;
  match v with
  | PFloat pct_null_threshold =>
      X ← lift (infer_feature_types X) ;
      let X := _convert_woodwork_types_wrapper (to_dataframe X) in
      let percent_null := mean (isnull X) in
      let null_cols :=
        if feq pct_null_threshold (Fin 0)
        then select (λ p, fgt p (Fin 0)) percent_null
        else select (λ p, fge p pct_null_threshold) percent_null in
      modify self (set_cols_to_drop (Holds (index null_cols))) ;;
      mret self
  | _ =>
      (* not reachable after [__init__], which stores a float *)
      raise (TypeError "pct_null_threshold is not a float")
  end.

(** The body of [transform].  The base class lets a component transform
    only once it has been fitted; the statements about this method are about
    a fitted transformer. *)
Definition transform (self : loc) (X : DataFrame) : M DataTable :=
  X ← lift (infer_feature_types X) ;
  o ← deref self ;
  match _cols_to_drop o with
  | Holds cols => lift (drop X cols)
  | IsNone => raise (ValueError "[None] not found in DataTable")
  | Absent => raise (AttributeError "_cols_to_drop")
  end.

(** The share of missing values of a column as the component sees it. *)
Definition null_share (vs : list cell) : pyfloat :=
  if decide (vs = []) then NaN else quotient (count_null vs) (length vs).

(** A column meets the threshold [t]: its share of missing values is above 0
    when [t] is 0.0, and at least [t] otherwise. *)
Definition meets (t : pyfloat) (c : column) : Prop :=
  if feq t (Fin 0) then flt (Fin 0) (null_share c.2) = true
  else fle t (null_share c.2) = true.

#[global] Instance meets_dec t c : Decision (meets t c).
Proof. unfold meets. destruct (feq t (Fin 0)); apply _. Defined.

Definition misses (t : pyfloat) (c : column) : Prop := ¬ meets t c.

#[global] Instance misses_dec t c : Decision (misses t c).
Proof. unfold misses. apply _. Defined.

End Methods.

(** The exact quotient. *)
Definition exact_quotient (k n : nat) : pyfloat :=
  match n with
  | O => NaN
  | _ => Fin (Qc_of_Z (Z.of_nat k) / Qc_of_Z (Z.of_nat n))
  end.

(** The binary64 quotient of two counts, by the Standard Library's
    specification of IEEE 754 arithmetic. *)
Definition of_spec_float (f : spec_float) : pyfloat :=
  match f with
  | S754_zero _ => Fin 0
  | S754_infinity s => if s then NegInf else PosInf
  | S754_nan => NaN
  | S754_finite s m e =>
      Fin (Q2Qc (inject_Z (if s then Z.neg m else Z.pos m) * Qpower 2 e))
  end.

Definition binary64 (n : nat) : spec_float :=
  binary_normalize 53 1024 (Z.of_nat n) 0 false.

Definition binary64_quotient (k n : nat) : pyfloat :=
  of_spec_float (SFdiv 53 1024 (binary64 k) (binary64 n)).

(** A typing helper that always returns and types every column
    ["Unknown"]. *)
Definition accepting (X : DataFrame) : outcome DataTable := Return (untyped X).

(** A typing helper that refuses duplicate labels and stores integers as
    floats, as pandas does in a column with missing values. *)
Definition as_float (v : cell) : cell :=
  match v with
  | IntCell z => FloatCell (Qc_of_Z z)
  | _ => v
  end.

Definition retyping (X : DataFrame) : outcome DataTable :=
  if decide (NoDup (columns X)) then
    Return {| to_dataframe := (λ c : column, (c.1, as_float <$> c.2)) <$> X;
              logical_types := (λ c : column, (c.1, "Double")) <$> X |}
  else Raise (IndexError "Dataframe cannot contain duplicate columns names").

End Binary64.

(** One missing value in ten rows. *)
Definition tenth_frame : DataFrame :=
  [("a", NA :: replicate 9 (IntCell 1))].


(** * Properties *)

(** ** Floats *)

Lemma flt_Fin (x y : Qc) : flt (Fin x) (Fin y) = true ↔ x < y.
Proof. simpl. apply bool_decide_eq_true. Qed.

Lemma fle_Fin (x y : Qc) : fle (Fin x) (Fin y) = true ↔ x ≤ y.
Proof. simpl. apply bool_decide_eq_true. Qed.

Lemma feq_Fin (x y : Qc) : feq (Fin x) (Fin y) = true ↔ x = y.
Proof. simpl. apply bool_decide_eq_true. Qed.

(** The guard of the constructor fires exactly outside the unit interval;
    NaN passes it. *)
Lemma guard_false_iff (t : pyfloat) :
  flt t (Fin 0) || fgt t (Fin 1) = false ↔
  t = NaN ∨ (fle (Fin 0) t = true ∧ fle t (Fin 1) = true).
Proof.
  unfold fgt. destruct t as [| |q|]; simpl.
  - split; [auto | done].
  - split; [done | intros [? | [? _]]; done].
  - rewrite orb_false_iff, !bool_decide_eq_false, !bool_decide_eq_true.
    rewrite <- !Qcle_ngt. split; [intros []; auto | intros [? | ?]; done].
  - split; [done | intros [? | [_ ?]]; done].
Qed.

(** ** The store *)

Lemma modify_Some (h : heap) self o f :
  h !! self = Some o → modify self f h = (Return tt, <[self := f o]> h).
Proof. unfold modify. by intros ->. Qed.

Lemma deref_Some (h : heap) self o :
  h !! self = Some o → deref self h = (Return o, h).
Proof. unfold deref. by intros ->. Qed.

Lemma bind_Return {A B} (m : M A) (k : A → M B) (h h' : heap) a :
  m h = (Return a, h') → (m ≫= k) h = k a h'.
Proof. unfold mbind, M_bind. by intros ->. Qed.

Lemma parameters_Holds (h : heap) self o p :
  h !! self = Some o → _parameters o = Holds p →
  parameters self h = (Return p, h).
Proof.
  intros Ho Hp. unfold parameters.
  rewrite (bind_Return _ _ _ _ _ (deref_Some _ _ _ Ho)). by rewrite Hp.
Qed.

(** ** The constructor *)

Import MyDropNullColumns.

Lemma init_raises (h : heap) self t seed kwargs :
  flt t (Fin 0) || fgt t (Fin 1) = true →
  __init__ self t seed kwargs h = (Raise (ValueError threshold_message), h).
Proof. intros Hg. unfold __init__. by rewrite Hg. Qed.

Lemma init_returns (h : heap) self o t seed kwargs :
  h !! self = Some o →
  flt t (Fin 0) || fgt t (Fin 1) = false →
  __init__ self t seed kwargs h =
    (Return tt, <[self := initialised t seed kwargs]> h).
Proof.
  intros Ho Hg. unfold __init__. rewrite Hg.
  rewrite (bind_Return _ _ _ _ _ (modify_Some _ _ _ _ Ho)).
  unfold Transformer__init__.
  rewrite (modify_Some _ _ (set_cols_to_drop IsNone o)) by apply lookup_insert_eq.
  by rewrite insert_insert_eq.
Qed.

(** C1.  On a freshly allocated object, the constructor raises exactly when
    the threshold is below 0 or above 1, the exception is then the
    [ValueError] and the store is as it was, so the object still has no
    attribute; for a threshold from 0 to 1, both ends included, it returns,
    and [parameters["pct_null_threshold"]] is the threshold.  The keyword
    arguments collected in [kwargs] never contain the name of a declared
    parameter. *)
Theorem init_threshold_check (h : heap) (self : loc) (t : pyfloat) (seed : Z)
    (kwargs : gmap string pyval) :
  h !! self = Some blank →
  kwargs !! "pct_null_threshold" = None →
  ((∃ e h', __init__ self t seed kwargs h = (Raise e, h')) ↔
     (flt t (Fin 0) = true ∨ fgt t (Fin 1) = true)) ∧
  (∀ e h', __init__ self t seed kwargs h = (Raise e, h') →
     e = ValueError threshold_message ∧ h' = h ∧ h' !! self = Some blank) ∧
  (fle (Fin 0) t = true → fle t (Fin 1) = true →
     ∃ h' p, __init__ self t seed kwargs h = (Return tt, h') ∧
             parameters self h' = (Return p, h') ∧
             p !! "pct_null_threshold" = Some (PFloat t)).
Proof.
  intros Hself Hkw.
  destruct (flt t (Fin 0) || fgt t (Fin 1)) eqn:Hg.
  - pose proof (init_raises h self t seed kwargs Hg) as Hr.
    apply orb_true_iff in Hg as Hg'.
    split; [split; [auto | intros _; eauto] | split].
    + intros e h' He. rewrite Hr in He. by simplify_eq.
    + intros H0 H1. apply not_false_iff_true in Hg. destruct Hg.
      apply guard_false_iff; auto.
  - pose proof (init_returns h self blank t seed kwargs Hself Hg) as Hr.
    split; [split|split].
    + intros (e & h' & He). rewrite Hr in He. done.
    + intros Hor. apply orb_true_iff in Hor. congruence.
    + intros e h' He. rewrite Hr in He. done.
    + intros _ _. eexists _, _. split; [done | split].
      * eapply parameters_Holds; [apply lookup_insert_eq | done].
      * unfold dict_update. apply lookup_union_Some_raw. right.
        split; [done | apply lookup_singleton_eq].
Qed.

Lemma init_threshold_check_witness :
  ∃ h' p, __init__ 1%positive (Fin 0) 0 ∅ {[ 1%positive := blank ]} = (Return tt, h') ∧
          parameters 1%positive h' = (Return p, h') ∧
          p !! "pct_null_threshold" = Some (PFloat (Fin 0)).
Proof.
  refine (proj2 (proj2 (init_threshold_check {[ 1%positive := blank ]} 1%positive
                          (Fin 0) 0 ∅ _ _)) _ _); reflexivity.
Defined.

(** Both ends of the interval are accepted, a value outside is not, and NaN
    passes the check, since it compares false with everything. *)
Example init_accepts_one :
  __init__ 1%positive (Fin 1) 0 ∅ {[ 1%positive := blank ]} =
    (Return tt, {[ 1%positive := initialised (Fin 1) 0 ∅ ]}).
Proof. reflexivity. Qed.

Example init_rejects_above_one :
  __init__ 1%positive (Fin (Qc_of_Z 3 / Qc_of_Z 2)) 0 ∅ {[ 1%positive := blank ]} =
    (Raise (ValueError threshold_message), {[ 1%positive := blank ]}).
Proof. reflexivity. Qed.

Example init_rejects_negative :
  __init__ 1%positive (Fin (- 1)) 0 ∅ {[ 1%positive := blank ]} =
    (Raise (ValueError threshold_message), {[ 1%positive := blank ]}).
Proof. reflexivity. Qed.

Example init_accepts_nan :
  __init__ 1%positive NaN 0 ∅ {[ 1%positive := blank ]} =
    (Return tt, {[ 1%positive := initialised NaN 0 ∅ ]}).
Proof. reflexivity. Qed.

(** ** Fractions of missing values *)

Lemma count_true_isnull (vs : list cell) :
  count_true (isnull_cell <$> vs) = count_null vs.
Proof.
  unfold count_true, count_null.
  induction vs as [|v vs IH]; [done|].
  rewrite fmap_cons, !filter_cons. destruct v; simpl; by rewrite ?IH.
Qed.

Lemma mean_bool_isnull (vs : list cell) :
  mean_bool (isnull_cell <$> vs) = null_fraction vs.
Proof.
  unfold null_fraction. destruct vs as [|v vs]; [done|].
  rewrite decide_False by done.
  unfold mean_bool. rewrite fmap_cons, <- fmap_cons.
  by rewrite count_true_isnull, length_fmap.
Qed.

Lemma count_null_le (vs : list cell) : (count_null vs ≤ length vs)%nat.
Proof. apply length_filter. Qed.

Lemma count_null_all (vs : list cell) :
  count_null vs = length vs ↔ Forall (λ v, v = NA) vs.
Proof.
  unfold count_null. induction vs as [|v vs IH]; [by split|].
  rewrite filter_cons. destruct (decide (v = NA)) as [->|Hv]; simpl.
  - split.
    + intros [= Hl]. constructor; [done | by apply IH].
    + intros Hf. inversion_clear Hf. f_equal. by apply IH.
  - split.
    + intros Hl. pose proof (length_filter (λ v, v = NA) vs). lia.
    + intros Hf. by inversion Hf.
Qed.

Lemma Qc_of_nat_pos (n : nat) : (0 < n)%nat → 0 < Qc_of_Z (Z.of_nat n).
Proof. intros Hn. rewrite <- Z2Qc_inj_0. apply (proj1 (Z2Qc_inj_lt _ _)). lia. Qed.

Lemma ratio_mul (k n : Qc) : 0 < n → k / n * n = k.
Proof.
  intros Hn. rewrite Qcmult_comm. apply Qcmult_div_r.
  intros ->. by apply (irreflexivity Qclt 0).
Qed.

(** [q ≤ k/n] is [q·n ≤ k]. *)
Lemma le_ratio (q : Qc) (k n : nat) :
  (0 < n)%nat →
  q ≤ Qc_of_Z (Z.of_nat k) / Qc_of_Z (Z.of_nat n) ↔
  q * Qc_of_Z (Z.of_nat n) ≤ Qc_of_Z (Z.of_nat k).
Proof.
  intros Hn. pose proof (Qc_of_nat_pos n Hn) as Hp.
  rewrite (Qcmult_le_mono_pos_r _ _ _ Hp). by rewrite ratio_mul.
Qed.

(** A column without rows is never to be dropped. *)
Lemma should_drop_no_rows (t : pyfloat) (l : label) : ¬ should_drop t (l, []).
Proof.
  unfold should_drop, null_fraction. simpl.
  destruct (feq t (Fin 0)), t; done.
Qed.

Lemma Qc_pos_ne (t : Qc) : 0 < t → t ≠ 0.
Proof. intros Ht ->. by apply (irreflexivity Qclt 0). Qed.

Lemma feq_Fin_ne (x y : Qc) : x ≠ y → feq (Fin x) (Fin y) = false.
Proof. intros. by apply bool_decide_eq_false_2. Qed.



(** ** Series *)


(** ** Construction *)

Lemma new_returns (h : heap) t seed kwargs :
  let t' := default (Fin 1) t in
  flt t' (Fin 0) || fgt t' (Fin 1) = false →
  new t seed kwargs h =
    (Return (fresh (dom h)),
     <[fresh (dom h) := initialised t' (default 0%Z seed) kwargs]> h).
Proof.
  intros t' Hg. unfold new, alloc.
  unfold mbind at 1, M_bind.
  rewrite (bind_Return _ _ _ _ _
             (init_returns _ _ blank _ _ _ (lookup_insert_eq _ _ _) Hg)).
  by rewrite insert_insert_eq.
Qed.

Lemma initialised_threshold t seed :
  ∃ p, _parameters (initialised t seed ∅) = Holds p ∧
       p !! "pct_null_threshold" = Some (PFloat t).
Proof.
  eexists. split; [done|]. unfold dict_update.
  by rewrite (left_id_L ∅ (∪)), lookup_singleton_eq.
Qed.

(** ** [fit] *)

Section Fit.
Variable infer_feature_types : DataFrame → DataTable.
Variable _convert_woodwork_types_wrapper : DataFrame → DataFrame.
Hypothesis typing : typing_wraps infer_feature_types.
Hypothesis conversion : conversion_keeps_nulls _convert_woodwork_types_wrapper.

Local Abbreviation fit := (fit infer_feature_types _convert_woodwork_types_wrapper).
Local Abbreviation recorded :=
  (recorded infer_feature_types _convert_woodwork_types_wrapper).



(** A [fit] that returns was run on an initialised transformer. *)
Lemma fit_inv (h h' : heap) self r X :
  fit self X h = (Return r, h') →
  ∃ o p t, h !! self = Some o ∧ _parameters o = Holds p ∧
           p !! "pct_null_threshold" = Some (PFloat t).
Proof.
  unfold MyDropNullColumns.fit, parameters, deref, getitem.
  unfold mbind, M_bind, mret, M_ret, raise.
  destruct (h !! self) as [o|] eqn:Ho; [|done].
  destruct (_parameters o) as [| |p] eqn:Hp; try done.
  destruct (p !! "pct_null_threshold") as [[]|] eqn:Ht; try done.
  intros _. eauto 10.
Qed.





End Fit.

Lemma untyped_wraps : typing_wraps untyped.
Proof. by intros X. Qed.

Lemma unconverted_keeps_nulls : conversion_keeps_nulls unconverted.
Proof. by intros X. Qed.

(** A frame with a column of missing values only, a column that is half
    missing and a column without missing values, at four thresholds. *)
Example recorded_at_zero :
  (recorded untyped unconverted (Some (Fin 0)) sample_frame ∅).1 =
    Return (Holds ["a"; "b"]).
Proof. reflexivity. Qed.

Example recorded_at_half :
  (recorded untyped unconverted (Some (Fin (Qc_of_Z 1 / Qc_of_Z 2)))
     sample_frame ∅).1 = Return (Holds ["a"; "b"]).
Proof. reflexivity. Qed.

Example recorded_at_three_quarters :
  (recorded untyped unconverted (Some (Fin (Qc_of_Z 3 / Qc_of_Z 4)))
     sample_frame ∅).1 = Return (Holds ["a"]).
Proof. reflexivity. Qed.

Example recorded_by_default :
  (recorded untyped unconverted None sample_frame ∅).1 = Return (Holds ["a"]).
Proof. reflexivity. Qed.


(** C2, as stated, fails on a frame without rows: every value of its column
    is missing, and the default transformer records nothing. *)
Lemma default_fit_zero_rows :
  ∃ cols h',
    recorded untyped unconverted None [("a", [])] ∅ = (Return (Holds cols), h') ∧
    ¬ (∀ c : column, c ∈ [("a", [])] → (c.1 ∈ cols ↔ all_null c)).
Proof.
  exists [], {[ 1%positive := set_cols_to_drop (Holds []) (initialised (Fin 1) 0 ∅) ]}.
  split; [reflexivity|].
  intros H. specialize (H ("a", []) (list_elem_of_here _ _)).
  apply (not_elem_of_nil "a"), H. constructor.
Qed.


(** ** [transform] *)

Lemma filter_nil_iff {A} (P : A → Prop) `{!∀ x, Decision (P x)} (l : list A) :
  filter P l = [] ↔ ∀ x, x ∈ l → ¬ P x.
Proof.
  split.
  - intros Hnil x Hx HP.
    assert (x ∈ filter P l) as Hin by by apply list_elem_of_filter.
    rewrite Hnil in Hin. by apply not_elem_of_nil in Hin.
  - intros Hall. destruct (filter P l) as [|x l'] eqn:Hf; [done|].
    assert (x ∈ filter P l) as Hin by (rewrite Hf; left).
    apply list_elem_of_filter in Hin as [HP Hx]. by destruct (Hall x Hx).
Qed.

Lemma drop_present (T : DataTable) (cols : list label) :
  cols ⊆ columns (to_dataframe T) →
  drop T cols =
    Return {| to_dataframe := filter (keep_column cols) (to_dataframe T);
              logical_types := filter (keep_column cols) (logical_types T) |}.
Proof.
  intros Hsub. unfold drop.
  replace (filter _ cols) with (@nil label); [done|].
  symmetry. apply filter_nil_iff. intros c Hc Hn. by apply Hn, Hsub.
Qed.

Lemma drop_missing (T : DataTable) (cols : list label) :
  ¬ cols ⊆ columns (to_dataframe T) →
  drop T cols = Raise (ValueError "not found in DataTable").
Proof.
  intros Hsub. unfold drop.
  destruct (filter _ cols) as [|c l] eqn:Hf; [|done].
  destruct Hsub. intros c Hc.
  destruct (decide (c ∈ columns (to_dataframe T))) as [|Hn]; [done|].
  by destruct (proj1 (filter_nil_iff _ _) Hf c Hc).
Qed.

(** C3, as stated, fails on a frame that lacks a recorded column: fitted on
    a frame whose column "a" is all missing, the transformer raises on a
    frame with the single column "b". *)
Lemma transform_missing_column_raises :
  let h1 : heap := {[ 1%positive := initialised (Fin 1) 0 ∅ ]} in
  let h2 : heap :=
    {[ 1%positive := set_cols_to_drop (Holds ["a"]) (initialised (Fin 1) 0 ∅) ]} in
  new None None ∅ ∅ = (Return 1%positive, h1) ∧
  fit untyped unconverted 1%positive [("a", [NA])] h1 = (Return 1%positive, h2) ∧
  transform untyped 1%positive [("b", [IntCell 1])] h2 =
    (Raise (ValueError "not found in DataTable"), h2).
Proof. repeat split. Qed.

(** ** The notebook *)

Lemma position_lookup (order : list string) (n : string) :
  n ∈ order → order !! position order n = Some n.
Proof.
  intros Hn. unfold position.
  destruct (list_find (λ x, x = n) order) as [[i x]|] eqn:Hf.
  - apply list_find_Some in Hf as (Hi & -> & _). done.
  - apply list_find_None in Hf. rewrite Forall_forall in Hf.
    by destruct (Hf n Hn).
Qed.

Lemma nonlinear_parent_cases (p c : string) :
  parent nonlinear_graph p c →
  (p, c) ∈ [("Imputer", "Encoder"); ("Encoder", "Random Forest Clf");
            ("Encoder", "Elastic Net Clf");
            ("Random Forest Clf", "Final Estimator");
            ("Elastic Net Clf", "Final Estimator")].
Proof.
  intros (v & Hin & Hp). vm_compute in Hin.
  repeat (apply elem_of_cons in Hin as [Hin|Hin]; [simplify_eq; simpl in Hp|]).
  all: try by apply elem_of_nil in Hin.
  all: repeat (apply elem_of_cons in Hp as [->|Hp]); try by apply elem_of_nil in Hp.
  all: set_solver.
Qed.

Lemma nonlinear_parent_position (p c : string) :
  parent nonlinear_graph p c →
  p ∈ nonlinear_graph.*1 ∧ c ∈ nonlinear_graph.*1 ∧
  (position nonlinear_graph.*1 p < position nonlinear_graph.*1 c)%nat.
Proof.
  intros H%nonlinear_parent_cases.
  repeat (apply elem_of_cons in H as [H|H]; [simplify_eq|]).
  all: try by apply elem_of_nil in H.
  all: split; [|split]; [by apply (bool_decide_unpack _) ..|vm_compute; lia].
Qed.

Lemma nonlinear_tc_position (a b : string) :
  tc (parent nonlinear_graph) a b →
  (position nonlinear_graph.*1 a < position nonlinear_graph.*1 b)%nat.
Proof.
  induction 1 as [a b H|a b c H _ IH];
    apply nonlinear_parent_position in H as (_ & _ & H); lia.
Qed.

(** C4.  The dictionary [component_graph] of
    [CustomNonlinearMulticlassClassificationPipeline] has distinct keys;
    every value is a list of strings with a first element, the component,
    followed by parents that are keys of the dictionary; no node reaches
    itself along parent links; and the keys, in the order of the dictionary,
    list every parent before its child. *)
Theorem nonlinear_graph_is_dag :
  (assoc "component_graph"
     (cls_attrs CustomNonlinearMulticlassClassificationPipeline)
   ≫= dict_graph) = Some nonlinear_graph ∧
  NoDup nonlinear_graph.*1 ∧
  Forall (λ kv, ∃ comp parents,
            kv.2 = comp :: parents ∧ parents ⊆ nonlinear_graph.*1)
         nonlinear_graph ∧
  (∀ n, ¬ tc (parent nonlinear_graph) n n) ∧
  ∃ order, order ≡ₚ nonlinear_graph.*1 ∧
           ∀ p c, parent nonlinear_graph p c → before order p c.
Proof.
  split; [reflexivity|]. split; [by apply (bool_decide_unpack _)|].
  split; [|split].
  - repeat constructor; eexists _, _; (split; [reflexivity|]);
      by apply (bool_decide_unpack _).
  - intros n H%nonlinear_tc_position. lia.
  - exists nonlinear_graph.*1. split; [done|]. intros p c H.
    apply nonlinear_parent_position in H as (Hp & Hc & Hlt).
    eexists _, _. eauto using position_lookup.
Qed.

(** C6.  The notebook instantiates a pipeline class five times.  Each time
    the [parameters] argument is a dictionary whose values are dictionaries,
    the empty dictionary included, and every key of it is the name of a
    component of the instantiated class. *)
Theorem instantiations_pass_two_level_parameters :
  length (instantiations empty_env notebook) = 5%nat ∧
  Forall (λ i, ∃ ps, parameters_argument i = Some ps ∧ two_level ps ∧
                     dict_keys ps ⊆
                       component_names (class_defs notebook) (inst_class i))
         (instantiations empty_env notebook).
Proof.
  split; [reflexivity|].
  repeat constructor; eexists; (split; [reflexivity|]); split.
  all: try by apply (bool_decide_unpack _).
  all: eexists; split; [reflexivity|]; repeat constructor; by eexists.
Qed.

(** C7.  The classes of the notebook that are not components are the seven
    pipeline classes listed; each of them has the single base
    [MulticlassClassificationPipeline] and a class variable
    [component_graph] that is a list of components or a dictionary of named
    components. *)
Theorem pipeline_classes_declare_graph :
  cls_name <$> filter pipeline_class (class_defs notebook) =
    ["CustomMulticlassClassificationPipeline";
     "CustomNonlinearMulticlassClassificationPipeline";
     "CustomComponentMulticlassClassificationPipeline";
     "CustomPipeline"; "CustomPipeline"; "CustomPipeline"; "CustomPipeline"] ∧
  Forall (λ c, cls_bases c = ["MulticlassClassificationPipeline"] ∧
               ∃ g, assoc "component_graph" (cls_attrs c) = Some g ∧
                    graph_shaped g)
         (filter pipeline_class (class_defs notebook)).
Proof.
  split; [reflexivity|].
  assert (filter pipeline_class (class_defs notebook) =
          [CustomMulticlassClassificationPipeline;
           CustomNonlinearMulticlassClassificationPipeline;
           CustomComponentMulticlassClassificationPipeline;
           CustomPipeline_named; CustomPipeline_plain; CustomPipeline_ranges;
           CustomPipeline_generated]) as -> by reflexivity.
  repeat (apply List.Forall_cons; [split; [reflexivity|]; eexists;
                                   (split; [reflexivity|])|]);
    [..|apply List.Forall_nil].
  all: first [ left; eexists; split; [reflexivity|];
               repeat (apply List.Forall_cons;
                         [unfold component_ref; by eauto|]);
               apply List.Forall_nil
             | right; eexists; split; [reflexivity|];
               repeat (apply List.Forall_cons;
                         [eexists _, _; split; [reflexivity|];
                          unfold component_ref; by eauto|]);
               apply List.Forall_nil ].
Qed.

(** * Further properties of the component *)

Lemma filter_ext_in {A} (P Q : A → Prop)
    `{!∀ x, Decision (P x), !∀ x, Decision (Q x)} (l : list A) :
  (∀ x, x ∈ l → P x ↔ Q x) → filter P l = filter Q l.
Proof.
  induction l as [|x l IH]; intros Hl; [done|].
  rewrite !filter_cons.
  rewrite IH by (intros y Hy; apply Hl; by right).
  pose proof (Hl x (list_elem_of_here _ _)) as Hx.
  destruct (decide (P x)), (decide (Q x)); tauto.
Qed.

Lemma count_null_pos (vs : list cell) : (0 < count_null vs)%nat ↔ NA ∈ vs.
Proof.
  unfold count_null. split.
  - intros Hpos. destruct (filter (λ v, v = NA) vs) as [|v l] eqn:Hf;
      [simpl in Hpos; lia|].
    assert (v ∈ filter (λ v, v = NA) vs) as Hin by (rewrite Hf; left).
    by apply list_elem_of_filter in Hin as [-> ?].
  - intros Hin.
    assert (NA ∈ filter (λ v, v = NA) vs) as Hf by by apply list_elem_of_filter.
    destruct (filter (λ v, v = NA) vs); [by apply elem_of_nil in Hf|simpl; lia].
Qed.

Lemma nonempty_length (vs : list cell) : vs ≠ [] → (0 < length vs)%nat.
Proof. destruct vs; [done | simpl; lia]. Qed.




Lemma columns_filter_subseteq (P : column → Prop) `{!∀ c, Decision (P c)}
    (X : DataFrame) :
  columns (filter P X) ⊆ columns X.
Proof.
  intros l. unfold columns. rewrite !list_elem_of_fmap.
  intros (c & -> & [_ Hc]%list_elem_of_filter). eauto.
Qed.

Lemma NoDup_fst_unique {A} (l : list (label * A)) k v v' :
  NoDup l.*1 → (k, v) ∈ l → (k, v') ∈ l → v = v'.
Proof.
  induction l as [|[k0 v0] l IH]; [by intros _ ?%elem_of_nil|].
  rewrite fmap_cons. intros [Hk0 Hnd]%NoDup_cons.
  assert (∀ w, (k0, w) ∈ l → False) as Hno.
  { intros w Hw. apply Hk0, list_elem_of_fmap. by exists (k0, w). }
  intros [Hv|Hv]%elem_of_cons [Hv'|Hv']%elem_of_cons; simplify_eq.
  - done.
  - by destruct (Hno _ Hv').
  - by destruct (Hno _ Hv).
  - by apply IH.
Qed.

Lemma filter_all {A} (P : A → Prop) `{!∀ x, Decision (P x)} (l : list A) :
  (∀ x, x ∈ l → P x) → filter P l = l.
Proof.
  induction l as [|x l IH]; intros Hl; [done|].
  rewrite filter_cons_True by (apply Hl; left).
  f_equal. apply IH. intros y Hy. apply Hl. by right.
Qed.

Lemma bind_Raise {A B} (m : M A) (k : A → M B) (h h' : heap) e :
  m h = (Raise e, h') → (m ≫= k) h = (Raise e, h').
Proof. unfold mbind, M_bind. by intros ->. Qed.

Lemma new_inv (h h1 : heap) pct seed kwargs self :
  new pct seed kwargs h = (Return self, h1) →
  flt (default (Fin 1) pct) (Fin 0) || fgt (default (Fin 1) pct) (Fin 1) = false ∧
  self = fresh (dom h) ∧
  h1 = <[self := initialised (default (Fin 1) pct) (default 0%Z seed) kwargs]> h.
Proof.
  destruct (flt (default (Fin 1) pct) (Fin 0) || fgt (default (Fin 1) pct) (Fin 1))
    eqn:Hg.
  - unfold new, alloc. unfold mbind at 1, M_bind.
    by rewrite (bind_Raise _ _ _ _ _ (init_raises _ _ _ _ _ Hg)).
  - rewrite (new_returns h pct seed kwargs Hg). by intros [= <- <-].
Qed.

(** X1.  A constructor call that passes the threshold check returns on any
    object, fitted or not: afterwards [parameters] holds the threshold under
    [pct_null_threshold] together with every keyword argument, and nothing
    else; the seed is stored, there is no component object, and
    [_cols_to_drop] is [None] again. *)
Theorem init_keeps_kwargs (h : heap) (self : loc) (o : instance) (t : pyfloat)
    (seed : Z) (kwargs : gmap string pyval) :
  h !! self = Some o →
  flt t (Fin 0) || fgt t (Fin 1) = false →
  ∃ h' o' p,
    __init__ self t seed kwargs h = (Return tt, h') ∧
    h' !! self = Some o' ∧
    parameters self h' = (Return p, h') ∧
    (∀ k v, kwargs !! k = Some v → p !! k = Some v) ∧
    (kwargs !! "pct_null_threshold" = None →
       p !! "pct_null_threshold" = Some (PFloat t)) ∧
    dom p = {[ "pct_null_threshold" ]} ∪ dom kwargs ∧
    random_seed o' = Holds seed ∧ _component_obj o' = IsNone ∧
    _cols_to_drop o' = IsNone ∧
    ∀ l, l ≠ self → h' !! l = h !! l.
Proof.
  intros Ho Hg. eexists _, (initialised t seed kwargs), _.
  split; [by apply (init_returns h self o)|].
  split; [apply lookup_insert_eq|].
  split; [by eapply parameters_Holds; [apply lookup_insert_eq|]|].
  unfold dict_update. split; [|split; [|split]].
  - intros k v Hk. by apply lookup_union_Some_l.
  - intros Hk. rewrite lookup_union_r by done. apply lookup_singleton_eq.
  - rewrite dom_union_L, dom_singleton_L. apply (comm_L (∪)).
  - repeat split. intros l Hl. by rewrite lookup_insert_ne.
Qed.

Lemma init_keeps_kwargs_witness :
  ∃ h' o' p,
    __init__ 1%positive (Fin 1) 7 {[ "flag" := PInt 1 ]}
      {[ 1%positive := set_cols_to_drop (Holds ["a"]) (initialised (Fin 0) 0 ∅) ]}
      = (Return tt, h') ∧
    h' !! 1%positive = Some o' ∧
    parameters 1%positive h' = (Return p, h') ∧
    (∀ k v, ({[ "flag" := PInt 1 ]} : gmap string pyval) !! k = Some v →
            p !! k = Some v) ∧
    (({[ "flag" := PInt 1 ]} : gmap string pyval) !! "pct_null_threshold" = None →
       p !! "pct_null_threshold" = Some (PFloat (Fin 1))) ∧
    dom p = {[ "pct_null_threshold" ]} ∪ dom ({[ "flag" := PInt 1 ]} : gmap string pyval) ∧
    random_seed o' = Holds 7%Z ∧ _component_obj o' = IsNone ∧
    _cols_to_drop o' = IsNone ∧
    ∀ l, l ≠ 1%positive →
         h' !! l =
         ({[ 1%positive := set_cols_to_drop (Holds ["a"]) (initialised (Fin 0) 0 ∅) ]}
            : heap) !! l.
Proof.
  apply (init_keeps_kwargs _ 1%positive
           (set_cols_to_drop (Holds ["a"]) (initialised (Fin 0) 0 ∅)));
    reflexivity.
Defined.

Section Further.
Variable infer_feature_types : DataFrame → DataTable.
Variable _convert_woodwork_types_wrapper : DataFrame → DataFrame.
Hypothesis typing : typing_wraps infer_feature_types.
Hypothesis conversion : conversion_keeps_nulls _convert_woodwork_types_wrapper.

Local Abbreviation fit :=
  (fit infer_feature_types _convert_woodwork_types_wrapper).
Local Abbreviation transform := (transform infer_feature_types).
Local Abbreviation recorded :=
  (recorded infer_feature_types _convert_woodwork_types_wrapper).




(** X9.  [transform] does not accept its own output: when at least one
    column is recorded and [transform] returned a table for a frame, it
    raises on the frame of that table, which no longer has the recorded
    columns. *)
Theorem transform_rejects_its_output (h : heap) (self : loc) (o : instance)
    (cols : list label) (X2 : DataFrame) (T : DataTable) :
  h !! self = Some o →
  _cols_to_drop o = Holds cols →
  cols ≠ [] →
  transform self X2 h = (Return T, h) →
  ∃ e, transform self (to_dataframe T) h = (Raise e, h).
Proof.
  intros Ho Hc Hne. unfold MyDropNullColumns.transform.
  rewrite !(bind_Return _ _ _ _ _ (deref_Some _ _ _ Ho)), Hc. unfold lift.
  destruct (decide (cols ⊆ columns (to_dataframe (infer_feature_types X2))))
    as [Hsub|Hsub].
  - rewrite (drop_present _ _ Hsub). intros [= <-]. cbn [to_dataframe].
    rewrite drop_missing; [by eexists|].
    rewrite typing. intros Hsub'. destruct cols as [|l cols]; [done|].
    specialize (Hsub' l (list_elem_of_here _ _)).
    apply list_elem_of_fmap in Hsub' as (c & -> & [Hk _]%list_elem_of_filter).
    apply Hk. left.
  - by rewrite (drop_missing _ _ Hsub).
Qed.


End Further.




Lemma transform_rejects_its_output_witness :
  ∃ e, transform untyped 1%positive [("b", [NA; IntCell 1]); ("c", [IntCell 1; IntCell 2])]
         {[ 1%positive := set_cols_to_drop (Holds ["a"]) (initialised (Fin 1) 0 ∅) ]} =
       (Raise e,
        {[ 1%positive := set_cols_to_drop (Holds ["a"]) (initialised (Fin 1) 0 ∅) ]}).
Proof.
  apply (transform_rejects_its_output untyped untyped_wraps _ 1%positive
           (set_cols_to_drop (Holds ["a"]) (initialised (Fin 1) 0 ∅)) ["a"]
           sample_frame
           {| to_dataframe :=
                [("b", [NA; IntCell 1]); ("c", [IntCell 1; IntCell 2])];
              logical_types := [("b", "Unknown"); ("c", "Unknown")] |});
    done.
Defined.


(** ** The shares of missing values *)

Lemma share_unit_interval (vs : list cell) :
  vs ≠ [] →
  0 ≤ Qc_of_Z (Z.of_nat (count_null vs)) / Qc_of_Z (Z.of_nat (length vs)) ∧
  Qc_of_Z (Z.of_nat (count_null vs)) / Qc_of_Z (Z.of_nat (length vs)) ≤ 1.
Proof.
  intros Hne%nonempty_length. pose proof (Qc_of_nat_pos _ Hne) as Hp.
  pose proof (count_null_le vs) as Hle. split.
  - rewrite le_ratio, Qcmult_0_l, <- Z2Qc_inj_0, <- Z2Qc_inj_le by done. lia.
  - rewrite (Qcmult_le_mono_pos_r _ _ _ Hp), ratio_mul, Qcmult_1_l by done.
    apply (proj1 (Z2Qc_inj_le _ _)). lia.
Qed.

(** X11.  [X.isnull().mean()] has one entry for each column of [X], in
    order and under the same label: NaN for a column without rows, and
    otherwise a number from 0 to 1. *)
Theorem percent_null_shares (X : DataFrame) :
  Forall2 share_of X (mean (isnull X)).
Proof.
  unfold mean, isnull. rewrite <- list_fmap_compose.
  apply Forall2_fmap_r, Forall_Forall2_diag, Forall_forall.
  intros [l vs] _. unfold share_of. simpl. split; [done|].
  rewrite mean_bool_isnull. unfold null_fraction.
  destruct (decide (vs = [])) as [->|Hne]; [by left|].
  right. split; [done|]. eexists. split; [done|]. by apply share_unit_interval.
Qed.

(** * The component over binary64 means *)

Lemma isnull_columns (X : DataFrame) : (isnull X).*1 = columns X.
Proof.
  unfold isnull, columns. induction X as [|c X IH]; [done|].
  by rewrite !fmap_cons, IH.
Qed.

Lemma isnull_filter_keep (cols : list label) (X : DataFrame) :
  isnull (filter (keep_column cols) X) = filter (keep_column cols) (isnull X).
Proof.
  unfold isnull. induction X as [|c X IH]; [done|].
  rewrite fmap_cons, !filter_cons.
  destruct (decide (keep_column cols c)) as [Hk|Hk].
  - rewrite decide_True by done. by rewrite fmap_cons, IH.
  - rewrite decide_False by done. by rewrite IH.
Qed.

Lemma columns_filter_keep {A} (cols : list label) (s : Series A) :
  (filter (keep_column cols) s).*1 = filter (λ l, l ∉ cols) s.*1.
Proof.
  induction s as [|c s IH]; [done|].
  rewrite fmap_cons, !filter_cons.
  destruct (decide (keep_column cols c)) as [Hk|Hk].
  - rewrite decide_True by done. by rewrite fmap_cons, IH.
  - rewrite decide_False by done. by rewrite IH.
Qed.

Lemma flt_not_fle (a b : pyfloat) : flt a b = true → fle b a = false.
Proof.
  destruct a as [| |x|], b as [| |y|]; simpl; try done.
  rewrite bool_decide_eq_true, bool_decide_eq_false. apply Qclt_not_le.
Qed.

Lemma drop_nothing (T : DataTable) : drop T [] = Return T.
Proof.
  rewrite drop_present by by intros ? ?%elem_of_nil.
  destruct T as [df ty]. cbn [to_dataframe logical_types].
  by rewrite !filter_all by (intros ? _ ?%elem_of_nil; done).
Qed.

Section Binary64Facts.
Variable quotient : nat → nat → pyfloat.
Variable infer_feature_types : DataFrame → outcome DataTable.
Variable _convert_woodwork_types_wrapper : DataFrame → DataFrame.
Hypothesis typing : Binary64.typing_keeps_nulls infer_feature_types.
Hypothesis conversion : conversion_keeps_nulls _convert_woodwork_types_wrapper.

Local Abbreviation fit :=
  (Binary64.fit quotient infer_feature_types _convert_woodwork_types_wrapper).
Local Abbreviation transform := (Binary64.transform infer_feature_types).
Local Abbreviation meets := (Binary64.meets quotient).
Local Abbreviation misses := (Binary64.misses quotient).
Local Abbreviation null_share := (Binary64.null_share quotient).

Lemma mean_bool_null_share (vs : list cell) :
  Binary64.mean_bool quotient (isnull_cell <$> vs) = null_share vs.
Proof.
  unfold Binary64.null_share. destruct vs as [|v vs]; [done|].
  rewrite decide_False by done.
  unfold Binary64.mean_bool. rewrite fmap_cons, <- fmap_cons.
  by rewrite count_true_isnull, length_fmap.
Qed.

Lemma index_select_mean (p : pyfloat → bool) (X : DataFrame) :
  index (select p (Binary64.mean quotient (isnull X))) =
  columns (filter (λ c : column, p (null_share c.2) = true) X).
Proof.
  unfold index, select, Binary64.mean, isnull, columns.
  induction X as [|[l vs] X IH]; [done|].
  rewrite !fmap_cons, !filter_cons. cbn [fst snd]. rewrite mean_bool_null_share.
  destruct (decide (p (null_share vs) = true)); rewrite ?fmap_cons, IH; done.
Qed.

(** The list [fit] computes from its threshold and the table of the helper. *)
Lemma null_cols_meets (t : pyfloat) (X : DataFrame) (T : DataTable) :
  infer_feature_types X = Return T →
  index (if feq t (Fin 0)
         then select (λ p, fgt p (Fin 0))
                (Binary64.mean quotient
                   (isnull (_convert_woodwork_types_wrapper (to_dataframe T))))
         else select (λ p, fge p t)
                (Binary64.mean quotient
                   (isnull (_convert_woodwork_types_wrapper (to_dataframe T))))) =
  columns (filter (meets t) X).
Proof.
  intros HT. rewrite conversion, (typing X T HT).
  destruct (feq t (Fin 0)) eqn:Ht; rewrite index_select_mean;
    f_equal; apply list_filter_iff; intros c; unfold Binary64.meets;
    by rewrite Ht.
Qed.

Lemma fit_accepted (h : heap) self o p t X T :
  h !! self = Some o →
  _parameters o = Holds p →
  p !! "pct_null_threshold" = Some (PFloat t) →
  infer_feature_types X = Return T →
  fit self X h =
    (Return self,
     <[self := set_cols_to_drop (Holds (columns (filter (meets t) X))) o]> h).
Proof.
  intros Ho Hp Ht HT. unfold Binary64.fit.
  rewrite (bind_Return _ _ _ _ _ (parameters_Holds _ _ _ _ Ho Hp)).
  unfold getitem. rewrite Ht. unfold mbind at 1, M_bind, mret, M_ret.
  unfold lift at 1. unfold mbind at 1, M_bind. rewrite HT.
  rewrite (null_cols_meets t X T HT).
  by rewrite (bind_Return _ _ _ _ _ (modify_Some _ _ _ _ Ho)).
Qed.

Lemma fit_refused (h : heap) self o p t X e :
  h !! self = Some o →
  _parameters o = Holds p →
  p !! "pct_null_threshold" = Some (PFloat t) →
  infer_feature_types X = Raise e →
  fit self X h = (Raise e, h).
Proof.
  intros Ho Hp Ht HT. unfold Binary64.fit.
  rewrite (bind_Return _ _ _ _ _ (parameters_Holds _ _ _ _ Ho Hp)).
  unfold getitem. rewrite Ht. unfold mbind at 1, M_bind, mret, M_ret.
  unfold lift at 1. unfold mbind at 1, M_bind. by rewrite HT.
Qed.

(** A [fit] that returns was run on an initialised transformer and on a
    frame the helper accepts. *)
Lemma fit_accepted_inv (h h' : heap) self r X :
  fit self X h = (Return r, h') →
  ∃ o p t T, h !! self = Some o ∧ _parameters o = Holds p ∧
             p !! "pct_null_threshold" = Some (PFloat t) ∧
             infer_feature_types X = Return T.
Proof.
  unfold Binary64.fit, parameters, deref, getitem, lift.
  unfold mbind, M_bind, mret, M_ret, raise.
  destruct (h !! self) as [o|] eqn:Ho; [|done].
  destruct (_parameters o) as [| |p] eqn:Hp; try done.
  destruct (p !! "pct_null_threshold") as [[]|] eqn:Ht; try done.
  destruct (infer_feature_types X) as [T|e] eqn:HT; [|done].
  intros _. eauto 10.
Qed.

Lemma typing_keeps_columns (X : DataFrame) (T : DataTable) :
  infer_feature_types X = Return T → columns (to_dataframe T) = columns X.
Proof. intros HT. by rewrite <- !isnull_columns, (typing X T HT). Qed.

(** What [transform] does on a fitted transformer. *)
Lemma transform_accepted (h : heap) self o cols X2 T2 :
  h !! self = Some o →
  _cols_to_drop o = Holds cols →
  infer_feature_types X2 = Return T2 →
  transform self X2 h = (drop T2 cols, h).
Proof.
  intros Ho Hc HT. unfold Binary64.transform, lift.
  unfold mbind at 1, M_bind. rewrite HT.
  by rewrite (bind_Return _ _ _ _ _ (deref_Some _ _ _ Ho)), Hc.
Qed.

Lemma transform_refused (h : heap) self X2 e :
  infer_feature_types X2 = Raise e → transform self X2 h = (Raise e, h).
Proof.
  intros HT. unfold Binary64.transform, lift.
  unfold mbind at 1, M_bind. by rewrite HT.
Qed.

Section Shares.
Hypothesis zero : Binary64.zero_share quotient.
Hypothesis full : Binary64.full_share quotient.
Hypothesis partial : Binary64.partial_share quotient.

(** At threshold 1.0 a column of at most 2^53 rows meets the threshold
    exactly when it has a row and all of its values are missing. *)
Lemma meets_one (c : column) :
  (Z.of_nat (length c.2) ≤ 2 ^ 53)%Z →
  meets (Fin 1) c ↔ nonempty_all_null c.
Proof.
  intros Hrows. unfold Binary64.meets, nonempty_all_null, all_null,
    Binary64.null_share.
  replace (feq (Fin 1) (Fin 0)) with false by done.
  destruct (decide (c.2 = [])) as [->|Hne]; [by split; [|intros []]|].
  rewrite <- count_null_all.
  pose proof (count_null_le c.2) as Hle.
  pose proof (nonempty_length _ Hne) as Hpos.
  destruct (decide (count_null c.2 = length c.2)) as [Heq|Hlt].
  - rewrite Heq, full by done. by split.
  - assert (count_null c.2 < length c.2)%nat as Hk by (clear -Hle Hlt; lia).
    rewrite (flt_not_fle _ _ (partial _ _ Hk Hrows)).
    split; [done | by intros [_ ?]].
Qed.

(** Without a missing value no accepted threshold is met. *)
Lemma meets_needs_null (t : pyfloat) (c : column) :
  flt t (Fin 0) || fgt t (Fin 1) = false →
  meets t c → has_null c.
Proof.
  intros Hg. unfold Binary64.meets, Binary64.null_share, has_null.
  destruct (decide (NA ∈ c.2)) as [|Hno]; [done|]. intros Hm. exfalso.
  assert (count_null c.2 = 0%nat) as Hz.
  { pose proof (count_null_pos c.2). destruct (count_null c.2); [done|].
    destruct Hno. apply H. lia. }
  destruct (decide (c.2 = [])) as [He|Hne].
  - by destruct (feq t (Fin 0)), t.
  - rewrite Hz, zero in Hm by by apply nonempty_length.
    apply guard_false_iff in Hg as [->|[H0 H1]]; [done|].
    destruct t as [| |q|]; try done. apply fle_Fin in H0.
    destruct (decide (q = 0)) as [->|Hq].
    + by vm_compute in Hm.
    + rewrite feq_Fin_ne in Hm by done. apply fle_Fin in Hm.
      apply Hq. by apply Qcle_antisym.
Qed.

(** C2 (amended).  Take a transformer whose parameters hold the threshold
    [t].  On a frame [X] that the typing helper accepts, [fit] returns the
    transformer itself and leaves in [_cols_to_drop] exactly the list of the
    columns of [X] whose share of missing values, the binary64 mean of the
    column of [X.isnull()], is above 0 when [t] is 0.0 and at least [t]
    otherwise; on a frame that the helper refuses, [fit] raises what the
    helper raises and the store is as it was.  A transformer constructed
    with no arguments has the threshold 1.0, and after [fit] on an accepted
    frame whose columns have at most 2^53 rows it has recorded exactly the
    columns that have at least one row and only missing values. *)
Theorem fit_records_by_rounded_share (h : heap) (self : loc) (o : instance)
    (p : gmap string pyval) (t : pyfloat) (X : DataFrame) :
  h !! self = Some o →
  _parameters o = Holds p →
  p !! "pct_null_threshold" = Some (PFloat t) →
  (∀ T, infer_feature_types X = Return T →
        fit self X h =
          (Return self,
           <[self := set_cols_to_drop
                       (Holds (columns (filter (meets t) X))) o]> h)) ∧
  (∀ e, infer_feature_types X = Raise e → fit self X h = (Raise e, h)) ∧
  ∃ self' h1 p1,
    new None None ∅ h = (Return self', h1) ∧
    parameters self' h1 = (Return p1, h1) ∧
    p1 !! "pct_null_threshold" = Some (PFloat (Fin 1)) ∧
    ∀ T, infer_feature_types X = Return T →
         Forall (λ c : column, (Z.of_nat (length c.2) ≤ 2 ^ 53)%Z) X →
         ∃ h2 o2,
           fit self' X h1 = (Return self', h2) ∧
           h2 !! self' = Some o2 ∧
           _cols_to_drop o2 = Holds (columns (filter nonempty_all_null X)).
Proof.
  intros Ho Hp Ht.
  split; [intros T HT; by eapply fit_accepted|].
  split; [intros e He; by eapply fit_refused|].
  destruct (initialised_threshold (Fin 1) 0) as (p1 & Hp1 & Ht1).
  eexists _, _, p1. split; [by apply new_returns|].
  split; [by eapply parameters_Holds; [apply lookup_insert_eq|]|].
  split; [done|]. intros T HT Hrows. eexists _, _.
  split; [eapply fit_accepted; [apply lookup_insert_eq | exact Hp1 | exact Ht1 | exact HT]|].
  split; [apply lookup_insert_eq|]. simpl. do 2 f_equal.
  apply filter_ext_in. intros c Hc. apply meets_one.
  by apply (proj1 (Forall_forall _ _) Hrows).
Qed.

End Shares.

(** C3 (amended).  After a [fit] that returned, [_cols_to_drop] holds a list
    of labels.  On a frame [X2] that the typing helper refuses, [transform]
    raises what the helper raises.  On a frame it accepts and that has every
    recorded label among its columns, [transform] returns the typed table of
    [X2] without the columns so labelled: the other columns in their order,
    under their labels, each with its rows and its missing values where
    they were, and with the values the helper gave them.  On a frame that
    lacks a recorded label, [transform] raises.  In every case the store is
    left as it was. *)
Theorem transform_drops_from_typed_table (h0 h : heap) (self r : loc)
    (X X2 : DataFrame) :
  fit self X h0 = (Return r, h) →
  ∃ o cols,
    h !! self = Some o ∧ _cols_to_drop o = Holds cols ∧
    (∀ e, infer_feature_types X2 = Raise e →
          transform self X2 h = (Raise e, h)) ∧
    (∀ T2, infer_feature_types X2 = Return T2 →
       (cols ⊆ columns X2 →
          ∃ T, transform self X2 h = (Return T, h) ∧
               to_dataframe T = filter (keep_column cols) (to_dataframe T2) ∧
               columns (to_dataframe T) = filter (λ l, l ∉ cols) (columns X2) ∧
               isnull (to_dataframe T) = filter (keep_column cols) (isnull X2)) ∧
       (¬ cols ⊆ columns X2 →
          ∃ e, transform self X2 h = (Raise e, h))).
Proof.
  intros Hfit.
  destruct (fit_accepted_inv _ _ _ _ _ Hfit) as (o & p & t & T & Ho & Hp & Ht & HT).
  rewrite (fit_accepted _ _ _ _ _ _ _ Ho Hp Ht HT) in Hfit.
  injection Hfit as _ <-.
  eexists _, _. split; [apply lookup_insert_eq|]. split; [done|].
  split; [intros e He; by apply transform_refused|].
  intros T2 HT2.
  erewrite transform_accepted; [|apply lookup_insert_eq|done|exact HT2].
  pose proof (typing_keeps_columns X2 T2 HT2) as Hcols.
  split.
  - intros Hsub. rewrite drop_present by by rewrite Hcols.
    eexists. split; [done|]. cbn [to_dataframe]. split; [done|].
    split.
    + unfold columns in *. by rewrite columns_filter_keep, Hcols.
    + by rewrite isnull_filter_keep, (typing X2 T2 HT2).
  - intros Hsub. rewrite drop_missing by by rewrite Hcols. by eexists.
Qed.

(** X3.  Fitting and then transforming the same frame, on an initialised
    transformer: when the typing helper refuses the frame the pair raises
    what the helper raises and the store is as it was; when it accepts the
    frame the pair returns the typed table without the recorded columns, so
    that the labels left are those of [X] that label no recorded column, no
    column of [X] under a label that is left meets the threshold, and, when
    the labels of [X] are distinct, the labels left are exactly those of the
    columns that miss the threshold. *)
Theorem fit_then_transform_accepted_frame (h : heap) (self : loc)
    (o : instance) (p : gmap string pyval) (t : pyfloat) (X : DataFrame) :
  h !! self = Some o →
  _parameters o = Holds p →
  p !! "pct_null_threshold" = Some (PFloat t) →
  (∀ e, infer_feature_types X = Raise e →
        (fit self X ≫= λ _, transform self X) h = (Raise e, h)) ∧
  (∀ TX, infer_feature_types X = Return TX →
     ∃ T h',
       (fit self X ≫= λ _, transform self X) h = (Return T, h') ∧
       to_dataframe T =
         filter (keep_column (columns (filter (meets t) X))) (to_dataframe TX) ∧
       columns (to_dataframe T) =
         filter (λ l, l ∉ columns (filter (meets t) X)) (columns X) ∧
       (∀ c, c ∈ X → c.1 ∈ columns (to_dataframe T) → misses t c) ∧
       (NoDup (columns X) →
          columns (to_dataframe T) = columns (filter (misses t) X))).
Proof.
  intros Ho Hp Ht. split.
  - intros e He. by rewrite (bind_Raise _ _ _ _ _ (fit_refused _ _ _ _ _ _ _ Ho Hp Ht He)).
  - intros TX HT.
    rewrite (bind_Return _ _ _ _ _ (fit_accepted _ _ _ _ _ _ _ Ho Hp Ht HT)).
    erewrite transform_accepted; [|apply lookup_insert_eq|done|exact HT].
    set (cols := columns (filter (meets t) X)).
    pose proof (typing_keeps_columns X TX HT) as Hcols.
    assert (∀ c, c ∈ X → meets t c → c.1 ∈ cols) as Hin.
    { intros c Hc Hd. apply list_elem_of_fmap. exists c. split; [done|].
      by apply list_elem_of_filter. }
    rewrite drop_present by (rewrite Hcols; apply columns_filter_subseteq).
    eexists _, _. split; [done|]. cbn [to_dataframe]. split; [done|].
    assert (columns (filter (keep_column cols) (to_dataframe TX)) =
            filter (λ l, l ∉ cols) (columns X)) as Hleft.
    { unfold columns in *. by rewrite columns_filter_keep, Hcols. }
    split; [done|]. rewrite Hleft. split.
    + intros c Hc [Hk _]%list_elem_of_filter Hm. by apply Hk, Hin.
    + intros Hnd. unfold columns. rewrite <- columns_filter_keep. f_equal.
      apply filter_ext_in. intros c Hc. unfold keep_column, Binary64.misses.
      split; [by auto|]. intros Hk Hcol.
      apply list_elem_of_fmap in Hcol as (c' & Hl & [Hd Hc']%list_elem_of_filter).
      destruct c as [l vs], c' as [l' vs']. simpl in Hl. subst l'.
      by rewrite (NoDup_fst_unique _ _ _ _ Hnd Hc Hc') in Hk.
Qed.

(** X8.  A transformer constructed with any accepted threshold and fitted
    on a frame without missing values has recorded the empty list, and its
    [transform] returns, for every frame the typing helper accepts, the
    table of the helper with all of its columns. *)
Theorem no_missing_values_table_returned (h h1 : heap) pct seed self
    (X X2 : DataFrame) (TX T2 : DataTable) :
  Binary64.zero_share quotient →
  new pct seed ∅ h = (Return self, h1) →
  (∀ c, c ∈ X → ¬ has_null c) →
  infer_feature_types X = Return TX →
  infer_feature_types X2 = Return T2 →
  ∃ h2 o2,
    (fit self X ≫= λ _, transform self X2) h1 = (Return T2, h2) ∧
    h2 !! self = Some o2 ∧ _cols_to_drop o2 = Holds [].
Proof.
  intros zero (Hg & _ & ->)%new_inv Hnone HT HT2.
  destruct (initialised_threshold (default (Fin 1) pct) (default 0%Z seed))
    as (p & Hp & Ht).
  erewrite bind_Return;
    [|by eapply fit_accepted;
         [apply lookup_insert_eq | exact Hp | exact Ht | exact HT]].
  rewrite insert_insert_eq.
  replace (filter (meets (default (Fin 1) pct)) X) with (@nil column).
  2:{ symmetry. apply filter_nil_iff. intros c Hc Hd.
      by apply (Hnone c Hc), (meets_needs_null zero _ _ Hg). }
  erewrite transform_accepted; [|apply lookup_insert_eq|done|exact HT2].
  cbn [columns fmap list_fmap]. rewrite drop_nothing.
  eexists _, _. split; [done|]. split; [apply lookup_insert_eq|done].
Qed.

End Binary64Facts.

(** ** Instances *)

Lemma exact_zero_share : Binary64.zero_share Binary64.exact_quotient.
Proof.
  intros [|n] Hn; [lia|]. unfold Binary64.exact_quotient. f_equal.
  apply Qcmult_0_l.
Qed.

Lemma exact_full_share : Binary64.full_share Binary64.exact_quotient.
Proof.
  intros [|n] Hn; [lia|]. unfold Binary64.exact_quotient. f_equal.
  apply Qcmult_inv_r, Qc_pos_ne, Qc_of_nat_pos. lia.
Qed.

Lemma exact_partial_share : Binary64.partial_share Binary64.exact_quotient.
Proof.
  intros k [|n] Hk _; [lia|]. unfold Binary64.exact_quotient.
  apply flt_Fin. assert (0 < S n)%nat as Hn by lia.
  pose proof (Qc_of_nat_pos _ Hn) as Hp.
  rewrite (Qcmult_lt_mono_pos_r _ _ _ Hp), ratio_mul, Qcmult_1_l by done.
  apply (proj1 (Z2Qc_inj_lt _ _)). lia.
Qed.

Lemma as_float_isnull (v : cell) : isnull_cell (Binary64.as_float v) = isnull_cell v.
Proof. by destruct v. Qed.

Lemma retyping_keeps_nulls : Binary64.typing_keeps_nulls Binary64.retyping.
Proof.
  intros X T. unfold Binary64.retyping.
  destruct (decide (NoDup (columns X))); [|done]. intros [= <-].
  cbn [to_dataframe]. unfold isnull. rewrite <- list_fmap_compose.
  apply list_fmap_ext. intros _ [l vs] _. simpl. f_equal.
  rewrite <- list_fmap_compose. apply list_fmap_ext. intros _ v _.
  apply as_float_isnull.
Qed.

Lemma accepting_keeps_nulls : Binary64.typing_keeps_nulls Binary64.accepting.
Proof. by intros X T [= <-]. Qed.

(** ** The exact component as an instance *)

Lemma exact_mean_bool (bs : list bool) :
  Binary64.mean_bool Binary64.exact_quotient bs = mean_bool bs.
Proof. by destruct bs. Qed.

Lemma exact_mean (B : list (label * list bool)) :
  Binary64.mean Binary64.exact_quotient B = mean B.
Proof.
  unfold Binary64.mean, mean. apply list_fmap_ext. intros _ c _.
  by rewrite exact_mean_bool.
Qed.

(** With the exact quotient and a helper that always returns, the methods
    are those of [MyDropNullColumns]. *)
Lemma fit_exact_instance (infer : DataFrame → DataTable)
    (conv : DataFrame → DataFrame) (self : loc) (X : DataFrame) (h : heap) :
  Binary64.fit Binary64.exact_quotient (λ X, Return (infer X)) conv self X h =
  fit infer conv self X h.
Proof.
  unfold Binary64.fit, fit, parameters, deref, getitem, lift.
  unfold mbind, M_bind, mret, M_ret, raise.
  destruct (h !! self) as [o|]; [|done].
  destruct (_parameters o) as [| |p]; try done.
  destruct (p !! "pct_null_threshold") as [[]|]; try done.
  by rewrite !exact_mean.
Qed.

Lemma transform_exact_instance (infer : DataFrame → DataTable)
    (self : loc) (X : DataFrame) (h : heap) :
  Binary64.transform (λ X, Return (infer X)) self X h = transform infer self X h.
Proof. done. Qed.

(** ** Binary64 at work *)

(** One missing value in ten rows, at the threshold that the literal [0.1]
    denotes, which is the binary64 quotient of 1 by 10 and lies above the
    rational 1/10: the mean of the column is that same number, so the
    column is recorded; with exact quotients it would not be. *)
Example tenth_is_above_one_tenth :
  flt (Binary64.exact_quotient 1 10) (Binary64.binary64_quotient 1 10) = true.
Proof. reflexivity. Qed.

Example fit_at_tenth_binary64 :
  Binary64.fit Binary64.binary64_quotient Binary64.retyping unconverted
    1%positive tenth_frame
    {[ 1%positive := initialised (Binary64.binary64_quotient 1 10) 0 ∅ ]} =
  (Return 1%positive,
   {[ 1%positive := set_cols_to_drop (Holds ["a"])
                      (initialised (Binary64.binary64_quotient 1 10) 0 ∅) ]}).
Proof. reflexivity. Qed.

Example fit_at_tenth_exact :
  Binary64.fit Binary64.exact_quotient Binary64.retyping unconverted
    1%positive tenth_frame
    {[ 1%positive := initialised (Binary64.binary64_quotient 1 10) 0 ∅ ]} =
  (Return 1%positive,
   {[ 1%positive := set_cols_to_drop (Holds [])
                      (initialised (Binary64.binary64_quotient 1 10) 0 ∅) ]}).
Proof. reflexivity. Qed.

(** Binary64 quotients of small counts: the three facts assumed of the
    quotient, and the mean of no rows. *)
Example binary64_shares :
  Binary64.binary64_quotient 0 7 = Fin 0 ∧
  Binary64.binary64_quotient 7 7 = Fin 1 ∧
  flt (Binary64.binary64_quotient 6 7) (Fin 1) = true ∧
  Binary64.binary64_quotient 0 0 = NaN.
Proof.
  split; [reflexivity|]. split; [|split; reflexivity].
  vm_compute. f_equal. by apply Qc_is_canon.
Qed.

(** A frame with a repeated label is refused, and [fit] raises. *)
Example fit_refuses_duplicate_labels :
  Binary64.fit Binary64.binary64_quotient Binary64.retyping unconverted
    1%positive [("a", [NA]); ("a", [IntCell 1])]
    {[ 1%positive := initialised (Fin 1) 0 ∅ ]} =
  (Raise (IndexError "Dataframe cannot contain duplicate columns names"),
   {[ 1%positive := initialised (Fin 1) 0 ∅ ]}).
Proof. reflexivity. Qed.

(** ** The amended claims at work *)

Lemma fit_records_by_rounded_share_witness :
  Binary64.fit Binary64.exact_quotient Binary64.retyping unconverted
    1%positive sample_frame {[ 1%positive := initialised (Fin 0) 0 ∅ ]} =
  (Return 1%positive,
   {[ 1%positive := set_cols_to_drop (Holds ["a"; "b"])
                      (initialised (Fin 0) 0 ∅) ]}).
Proof.
  refine (eq_trans (proj1 (fit_records_by_rounded_share
            Binary64.exact_quotient Binary64.retyping unconverted
            retyping_keeps_nulls unconverted_keeps_nulls
            exact_full_share exact_partial_share
            {[ 1%positive := initialised (Fin 0) 0 ∅ ]} 1%positive
            (initialised (Fin 0) 0 ∅)
            (dict_update {[ "pct_null_threshold" := PFloat (Fin 0) ]} ∅)
            (Fin 0) sample_frame _ _ _) _ _) _); reflexivity.
Defined.

Lemma transform_drops_from_typed_table_witness :
  ∃ T, Binary64.transform Binary64.retyping 1%positive sample_frame
         {[ 1%positive := set_cols_to_drop (Holds ["a"]) (initialised (Fin 1) 0 ∅) ]} =
       (Return T,
        {[ 1%positive := set_cols_to_drop (Holds ["a"]) (initialised (Fin 1) 0 ∅) ]}) ∧
       columns (to_dataframe T) = ["b"; "c"] ∧
       to_dataframe T =
         [("b", [NA; FloatCell (Qc_of_Z 1)]);
          ("c", [FloatCell (Qc_of_Z 1); FloatCell (Qc_of_Z 2)])].
Proof.
  destruct (transform_drops_from_typed_table Binary64.exact_quotient
              Binary64.retyping unconverted retyping_keeps_nulls
              unconverted_keeps_nulls
              {[ 1%positive := initialised (Fin 1) 0 ∅ ]}
              {[ 1%positive := set_cols_to_drop (Holds ["a"]) (initialised (Fin 1) 0 ∅) ]}
              1%positive 1%positive [("a", [NA])] sample_frame)
    as (o & cols & Ho & Hc & _ & Hacc); [reflexivity|].
  apply (inj Some) in Ho. subst o. injection Hc as <-.
  destruct (Hacc _ eq_refl) as [Hret _].
  destruct Hret as (T & HT & Hdf & Hcols & _);
    [by apply (bool_decide_unpack _)|].
  exists T. split; [done|]. split; [rewrite Hcols; reflexivity|]. rewrite Hdf.
  reflexivity.
Defined.

Lemma fit_then_transform_accepted_frame_witness :
  ∃ T h',
    (Binary64.fit Binary64.exact_quotient Binary64.retyping unconverted
       1%positive sample_frame
       ≫= λ _, Binary64.transform Binary64.retyping 1%positive sample_frame)
      {[ 1%positive := initialised (Fin 1) 0 ∅ ]} = (Return T, h') ∧
    columns (to_dataframe T) = ["b"; "c"].
Proof.
  destruct (fit_then_transform_accepted_frame Binary64.exact_quotient
              Binary64.retyping unconverted retyping_keeps_nulls
              unconverted_keeps_nulls
              {[ 1%positive := initialised (Fin 1) 0 ∅ ]} 1%positive
              (initialised (Fin 1) 0 ∅)
              (dict_update {[ "pct_null_threshold" := PFloat (Fin 1) ]} ∅)
              (Fin 1) sample_frame) as [_ Hacc]; [reflexivity..|].
  edestruct Hacc as (T & h' & Hrun & _ & Hcols & _); [reflexivity|].
  exists T, h'. split; [done|]. rewrite Hcols. reflexivity.
Defined.

Lemma no_missing_values_table_returned_witness :
  ∃ T2 h2 o2,
    Binary64.retyping sample_frame = Return T2 ∧
    (Binary64.fit Binary64.exact_quotient Binary64.retyping unconverted
       1%positive [("c", [IntCell 1; IntCell 2])]
       ≫= λ _, Binary64.transform Binary64.retyping 1%positive sample_frame)
      {[ 1%positive := initialised (Fin 0) 0 ∅ ]} = (Return T2, h2) ∧
    h2 !! 1%positive = Some o2 ∧ _cols_to_drop o2 = Holds [].
Proof.
  edestruct (no_missing_values_table_returned Binary64.exact_quotient
               Binary64.retyping unconverted retyping_keeps_nulls
               unconverted_keeps_nulls ∅
               {[ 1%positive := initialised (Fin 0) 0 ∅ ]}
               (Some (Fin 0)) None 1%positive
               [("c", [IntCell 1; IntCell 2])] sample_frame)
    as (h2 & o2 & Hrun);
    [apply exact_zero_share | reflexivity | | reflexivity | reflexivity
    | eexists _, h2, o2; split; [reflexivity | exact Hrun]].
  intros c Hc. apply elem_of_cons in Hc as [->|Hc];
    [by apply (bool_decide_unpack _) | by apply elem_of_nil in Hc].
Defined.
